(** * The persistent bash session of [scripts/bash_tool.py]

    A shallow embedding of [_BashSession] and [BashTool]: the shell process
    is an abstract state machine ([Backend]); the session and the tool are
    records threaded through a small state-and-exception monad; the
    polling loop of [_BashSession.run] is a recursion on the number of
    polls that fit before [asyncio.timeout] fires. *)

From Stdlib Require Import Bool Arith Lia List ZArith.
From Stdlib Require Import Ascii String DecimalString.
Import ListNotations.

Open Scope string_scope.

(** ** Python text operations *)

Module PyStr.

(** A [str] is represented by its UTF-8 encoding.  The sentinel and the
    newline are ASCII, and UTF-8 is self-synchronising, so searching,
    slicing at a found position and dropping a final newline agree on
    the code points and on the bytes. *)

Definition newline : ascii := "010"%char.

(** [s.endswith("\n")] *)
Fixpoint endswith_newline (s : string) : bool :=
  match s with
  | EmptyString => false
  | String c EmptyString => Ascii.eqb c newline
  | String _ r => endswith_newline r
  end.

(** [s[:-1]] *)
Fixpoint drop_last (s : string) : string :=
  match s with
  | EmptyString => EmptyString
  | String _ EmptyString => EmptyString
  | String c r => String c (drop_last r)
  end.

(** [if s.endswith("\n"): s = s[:-1]] *)
Definition chomp (s : string) : string :=
  if endswith_newline s then drop_last s else s.

(** [s.index(pat)], [None] where Python raises [ValueError];
    [pat in s] holds exactly when it is [Some _]. *)
Definition find (pat s : string) : option nat := String.index 0 pat s.

(** [s[:i]] *)
Definition upto (i : nat) (s : string) : string := String.substring 0 i s.

(** [str(n)] for an [int]. *)
Definition of_int (n : Z) : string := NilZero.string_of_int (Z.to_int n).

(** *** Strict UTF-8, as [bytes.decode()] checks it *)

Definition between (lo hi : N) (c : ascii) : bool :=
  let n := N_of_ascii c in (N.leb lo n && N.leb n hi)%bool.

Definition cont (c : ascii) : bool := between 128 191 c.

Fixpoint utf8_valid (s : string) : bool :=
  match s with
  | EmptyString => true
  | String c0 r0 =>
    if between 0 127 c0 then utf8_valid r0 else
    match r0 with
    | EmptyString => false
    | String c1 r1 =>
      if between 194 223 c0 then (cont c1 && utf8_valid r1)%bool else
      match r1 with
      | EmptyString => false
      | String c2 r2 =>
        if between 224 239 c0 then
          ((if between 224 224 c0 then between 160 191 c1
            else if between 237 237 c0 then between 128 159 c1
            else cont c1)
           && cont c2 && utf8_valid r2)%bool
        else
        match r2 with
        | EmptyString => false
        | String c3 r3 =>
          if between 240 244 c0 then
            ((if between 240 240 c0 then between 144 191 c1
              else if between 244 244 c0 then between 128 143 c1
              else cont c1)
             && cont c2 && cont c3 && utf8_valid r3)%bool
          else false
        end
      end
    end
  end.

(** [b.decode()]: [None] stands for [UnicodeDecodeError]. *)
Definition decode (b : string) : option string :=
  if utf8_valid b then Some b else None.

End PyStr.

(** ** Python effects: mutable state that survives a raised exception *)

Inductive PyException : Type :=
| Exception (msg : string)
| UnicodeDecodeError
| AttributeError.

Inductive Outcome (A : Type) : Type :=
| Returned (a : A)
| Raised (e : PyException).

Arguments Returned {A} a.
Arguments Raised {A} e.

Definition Py (St A : Type) : Type := St -> Outcome A * St.

Definition ret {St A : Type} (a : A) : Py St A := fun s => (Returned a, s).

Definition raise {St A : Type} (e : PyException) : Py St A :=
  fun s => (Raised e, s).

Definition bind {St A B : Type} (m : Py St A) (k : A -> Py St B) : Py St B :=
  fun s => match m s with
           | (Returned a, s') => k a s'
           | (Raised e, s') => (Raised e, s')
           end.

Definition get {St : Type} : Py St St := fun s => (Returned s, s).

Definition put {St : Type} (s : St) : Py St unit := fun _ => (Returned tt, s).

Declare Scope py_scope.
Delimit Scope py_scope with py.
Notation "x <- m ;; k" := (bind m (fun x => k))
  (at level 61, m at next level, right associativity) : py_scope.
Notation "m ;; k" := (bind m (fun _ => k))
  (at level 61, right associativity) : py_scope.
Open Scope py_scope.

(** A Python [dict] with string keys and values; the code only builds
    literals and hands them to the caller. *)
Definition dict : Type := list (string * string).

(** ** The process backend *)

(** The operating-system side of [asyncio.subprocess.Process]: what the
    shell does with its input and what it produces while the caller
    sleeps.  Creating the process is taken to succeed and to give a live
    process; nothing else is assumed of it. *)
Class Backend (B : Type) : Type := {
  (** the process [create_subprocess_shell("/bin/bash", ...)] creates *)
  spawn : B;
  (** [Process.returncode] *)
  exit_status : B -> option Z;
  (** bytes arriving on the shell's standard input *)
  feed : string -> B -> B;
  (** one [_output_delay] passes: the new process state and the bytes
      that reached the stdout and the stderr stream reader *)
  elapse : B -> B * (string * string);
  (** [Process.terminate()] *)
  sigterm : B -> B;
  (** how many polls complete before [asyncio.timeout(_timeout)] fires
      (about 600 with the class defaults 120.0 and 0.2) *)
  polls : nat;
  spawn_alive : exit_status spawn = None
}.

(** Signals a process can be sent; the program only ever sends SIGTERM,
    through [terminate]. *)
Inductive Signal : Type := SIGTERM | SIGINT.

Section Session.

Context {B : Type} `{Backend B}.

(** The [Process] object: the backend, the two [StreamReader] buffers,
    and a log of what this program sent to it. *)
Record Process : Type := {
  os : B;
  stdin_written : list string;
  stdout_buffer : string;
  stderr_buffer : string;
  signalled : list Signal
}.

Definition create_subprocess_shell : Process :=
  {| os := spawn; stdin_written := []; stdout_buffer := "";
     stderr_buffer := ""; signalled := [] |}.

Definition returncode (p : Process) : option Z := exit_status (os p).

(** [process.stdin.write(data)] followed by [drain()] *)
Definition stdin_write (data : string) (p : Process) : Process :=
  {| os := feed data (os p);
     stdin_written := stdin_written p ++ [data];
     stdout_buffer := stdout_buffer p;
     stderr_buffer := stderr_buffer p;
     signalled := signalled p |}.

Definition terminate (p : Process) : Process :=
  {| os := sigterm (os p);
     stdin_written := stdin_written p;
     stdout_buffer := stdout_buffer p;
     stderr_buffer := stderr_buffer p;
     signalled := signalled p ++ [SIGTERM] |}.

(** [await asyncio.sleep(_output_delay)]: the event loop moves what the
    shell produced into the reader buffers. *)
Definition sleep (p : Process) : Process :=
  let '(b, (out, err)) := elapse (os p) in
  {| os := b;
     stdin_written := stdin_written p;
     stdout_buffer := stdout_buffer p ++ out;
     stderr_buffer := stderr_buffer p ++ err;
     signalled := signalled p |}.

(** [stdout._buffer.clear()] and [stderr._buffer.clear()] *)
Definition clear_buffers (p : Process) : Process :=
  {| os := os p;
     stdin_written := stdin_written p;
     stdout_buffer := "";
     stderr_buffer := "";
     signalled := signalled p |}.

Fixpoint after (n : nat) (p : Process) : Process :=
  match n with
  | O => p
  | S k => after k (sleep p)
  end.

(** *** [_BashSession] *)

Record _BashSession : Type := {
  _started : bool;
  _timed_out : bool;
  _process : option Process
}.

Definition _sentinel : string := "<<exit>>".

(** [f"{_timeout}"] for the class default [120.0] *)
Definition _timeout : string := "120.0".

Definition nl : string := String PyStr.newline "".

Definition timed_out_message : string :=
  "timed out: bash has not returned in " ++ _timeout
    ++ " seconds and must be restarted".

Definition not_started_message : string := "Session has not started.".

(** [_BashSession()] *)
Definition new_session : _BashSession :=
  {| _started := false; _timed_out := false; _process := None |}.

(** What [start] makes of [_BashSession()]. *)
Definition started_session : _BashSession :=
  {| _started := true; _timed_out := false;
     _process := Some create_subprocess_shell |}.

Definition set_process (p : Process) : Py _BashSession unit :=
  fun s => (Returned tt,
            {| _started := _started s; _timed_out := _timed_out s;
               _process := Some p |}).

Definition set_started (b : bool) : Py _BashSession unit :=
  fun s => (Returned tt,
            {| _started := b; _timed_out := _timed_out s;
               _process := _process s |}).

Definition set_timed_out (b : bool) : Py _BashSession unit :=
  fun s => (Returned tt,
            {| _started := _started s; _timed_out := b;
               _process := _process s |}).

(** reading [self._process]; the attribute does not exist before
    [start] has assigned it *)
Definition the_process : Py _BashSession Process :=
  fun s => match _process s with
           | Some p => (Returned p, s)
           | None => (Raised AttributeError, s)
           end.

(** [create_subprocess_shell] is taken to return a process; were it to
    raise, [_started] would stay false on a session the tool has already
    stored. *)
Definition start : Py _BashSession unit :=
  s <- get ;;
  if _started s then ret tt
  else
    set_process create_subprocess_shell ;;
    set_started true.

Definition stop : Py _BashSession unit :=
  s <- get ;;
  if negb (_started s) then raise (Exception not_started_message)
  else
    p <- the_process ;;
    match returncode p with
    | Some _ => ret tt
    | None => set_process (terminate p)
    end.

(** How the [while True] loop under [asyncio.timeout] ends. *)
Inductive Wait : Type :=
| Seen (output : string)
| TimeoutError
| Undecodable.

(** [n] is the number of sleeps that still complete before the timeout
    cancels the pending one. *)
Fixpoint wait_for_sentinel (n : nat) (p : Process) : Wait * Process :=
  match n with
  | O => (TimeoutError, p)
  | S k =>
    let p := sleep p in
    match PyStr.decode (stdout_buffer p) with
    | None => (Undecodable, p)
    | Some output =>
      match PyStr.find _sentinel output with
      | Some i => (Seen (PyStr.upto i output), p)
      | None => wait_for_sentinel k p
      end
    end
  end.

Definition exited_result (rc : Z) : dict :=
  [("system", "tool must be restarted");
   ("error", "bash has exited with returncode " ++ PyStr.of_int rc)].

(** [command.encode() + f"; echo '{self._sentinel}'\n".encode()], for a
    command given by its UTF-8 encoding (text that [encode] accepts) *)
Definition command_line (command : string) : string :=
  command ++ "; echo '" ++ _sentinel ++ "'" ++ nl.

Definition run (command : string) : Py _BashSession dict :=
  s <- get ;;
  if negb (_started s) then raise (Exception not_started_message)
  else
    p <- the_process ;;
    match returncode p with
    | Some rc => ret (exited_result rc)
    | None =>
      if _timed_out s then raise (Exception timed_out_message)
      else
        let p := stdin_write (command_line command) p in
        match wait_for_sentinel polls p with
        | (TimeoutError, p) =>
          set_process p ;;
          set_timed_out true ;;
          raise (Exception timed_out_message)
        | (Undecodable, p) =>
          set_process p ;;
          raise UnicodeDecodeError
        | (Seen output, p) =>
          set_process p ;;
          let output := PyStr.chomp output in
          match PyStr.decode (stderr_buffer p) with
          | None => raise UnicodeDecodeError
          | Some error =>
            let error := PyStr.chomp error in
            set_process (clear_buffers p) ;;
            ret [("output", output); ("error", error)]
          end
        end
    end.

(** *** [BashTool] *)

Record BashTool : Type := { _session : option _BashSession }.

(** [BashTool()]: the class attribute [_session = None] *)
Definition new_tool : BashTool := {| _session := None |}.

(** [if restart:] for [restart: Optional[bool]] *)
Definition truthy (restart : option bool) : bool :=
  match restart with
  | Some true => true
  | _ => false
  end.

(** [if command:] *)
Definition nonempty (command : string) : bool :=
  match command with
  | EmptyString => false
  | String _ _ => true
  end.

(** a method call on [self._session] *)
Definition on_session {A : Type} (m : Py _BashSession A) : Py BashTool A :=
  fun t => match _session t with
           | None => (Raised AttributeError, t)
           | Some s => let '(r, s') := m s in (r, {| _session := Some s' |})
           end.

Definition restarted_result : dict := [("system", "tool has been restarted")].

Definition no_command_message : string := "no command provided.".

Definition forward (command : string) (restart : option bool)
  : Py BashTool dict :=
  if truthy restart then
    t <- get ;;
    match _session t with
    | Some _ => on_session stop
    | None => ret tt
    end ;;
    put {| _session := Some new_session |} ;;
    on_session start ;;
    ret restarted_result
  else
    t <- get ;;
    match _session t with
    | None => put {| _session := Some new_session |} ;; on_session start
    | Some _ => ret tt
    end ;;
    if nonempty command then on_session (run command)
    else raise (Exception no_command_message).

(** *** The tool and the shells it has let go *)

(** [self._session = _BashSession()] drops the tool's only reference to
    the session it held; the shell of that session remains a process of
    the operating system.  A [Host] keeps those shells in view, as the
    tool's last actions left them. *)
Record Host : Type := {
  bash : BashTool;
  orphans : list Process
}.

(** the shell of the session the tool holds, if it has one *)
Definition process_of (t : BashTool) : list Process :=
  match _session t with
  | Some s => match _process s with
              | Some p => [p]
              | None => []
              end
  | None => []
  end.

(** a statement that only touches what the tool refers to *)
Definition in_tool {A : Type} (m : Py BashTool A) : Py Host A :=
  fun h => let '(r, t) := m (bash h) in
           (r, {| bash := t; orphans := orphans h |}).

(** [self._session = s] *)
Definition assign_session (s : _BashSession) : Py Host unit :=
  fun h => (Returned tt,
            {| bash := {| _session := Some s |};
               orphans := orphans h ++ process_of (bash h) |}).

(** [BashTool.forward] once more, statement by statement, in a [Host]. *)
Definition forward_host (command : string) (restart : option bool)
  : Py Host dict :=
  if truthy restart then
    h <- get ;;
    match _session (bash h) with
    | Some _ => in_tool (on_session stop)
    | None => ret tt
    end ;;
    assign_session new_session ;;
    in_tool (on_session start) ;;
    ret restarted_result
  else
    h <- get ;;
    match _session (bash h) with
    | None => assign_session new_session ;; in_tool (on_session start)
    | Some _ => ret tt
    end ;;
    if nonempty command then in_tool (on_session (run command))
    else raise (Exception no_command_message).

(** *** Between and across calls *)

(** One [_output_delay] passes while no call is in flight. *)
Definition idle (t : BashTool) : BashTool :=
  match _session t with
  | Some s =>
    match _process s with
    | Some p =>
      {| _session := Some {| _started := _started s;
                             _timed_out := _timed_out s;
                             _process := Some (sleep p) |} |}
    | None => t
    end
  | None => t
  end.

Inductive Step : Type :=
| Call (command : string) (restart : option bool)
| Pause.

Definition no_restart (st : Step) : bool :=
  match st with
  | Call _ restart => negb (truthy restart)
  | Pause => true
  end.

(** The outcomes of the calls of a schedule, in order, and the tool
    it leaves. *)
Fixpoint play (sched : list Step) (t : BashTool)
  : list (Outcome dict) * BashTool :=
  match sched with
  | [] => ([], t)
  | Call command restart :: rest =>
    let '(r, t') := forward command restart t in
    let '(rs, t'') := play rest t' in
    (r :: rs, t'')
  | Pause :: rest => play rest (idle t)
  end.

(** The bytes the backend produces on each stream in [n] delays. *)
Fixpoint produced (n : nat) (b : B) : string * string :=
  match n with
  | O => ("", "")
  | S k =>
    let '(b', (out, err)) := elapse b in
    let '(outs, errs) := produced k b' in
    (out ++ outs, err ++ errs)
  end.

(** *** The states of the specification's state machine *)

Definition Running (s : _BashSession) (p : Process) : Prop :=
  _started s = true /\ _process s = Some p /\
  returncode p = None /\ _timed_out s = false.

Definition TimedOut (s : _BashSession) (p : Process) : Prop :=
  _started s = true /\ _process s = Some p /\
  returncode p = None /\ _timed_out s = true.

Definition Exited (s : _BashSession) (p : Process) (rc : Z) : Prop :=
  _started s = true /\ _process s = Some p /\ returncode p = Some rc.

(** The tool holds no session, or one that has been started. *)
Definition tool_ok (t : BashTool) : Prop :=
  match _session t with
  | None => True
  | Some s => exists p, _started s = true /\ _process s = Some p
  end.

(** Everything written so far to the standard input of the tool's
    current process. *)
Definition session_stdin (t : BashTool) : list string :=
  match _session t with
  | Some s => match _process s with
              | Some p => stdin_written p
              | None => []
              end
  | None => []
  end.

(** The tool holds a session that has recorded a timeout. *)
Definition tool_timed_out (t : BashTool) : Prop :=
  exists s p,
    _session t = Some s /\ _started s = true /\
    _process s = Some p /\ _timed_out s = true.

(** *** What the polls of one [run] see *)

(** The process as the [j]-th poll of [run command] finds it. *)
Definition polled (command : string) (p : Process) (j : nat) : Process :=
  after j (stdin_write (command_line command) p).

(** A poll that decodes the buffer and does not find the sentinel. *)
Definition misses (q : Process) : bool :=
  (PyStr.utf8_valid (stdout_buffer q)
   && match PyStr.find _sentinel (stdout_buffer q) with
      | Some _ => false
      | None => true
      end)%bool.

(** The polls [1 .. d] of [run command] all miss. *)
Definition misses_through (command : string) (p : Process) (d : nat)
  : bool :=
  forallb (fun j => misses (polled command p j)) (seq 1 d).

(** The command is still running when the timeout fires. *)
Definition outlasts_timeout (command : string) (p : Process) : bool :=
  misses_through command p polls.

(** How a later call is turned away: one of the two exceptions or the
    must-restart record. *)
Definition refused (r : Outcome dict) : Prop :=
  r = Raised (Exception timed_out_message) \/
  r = Raised (Exception no_command_message) \/
  exists rc, r = Returned (exited_result rc).


Fixpoint pauses (sched : list Step) : nat :=
  match sched with
  | [] => 0
  | Call _ _ :: rest => pauses rest
  | Pause :: rest => S (pauses rest)
  end.

Fixpoint calls (sched : list Step) : nat :=
  match sched with
  | [] => 0
  | Call _ _ :: rest => S (calls rest)
  | Pause :: rest => calls rest
  end.

End Session.

(** ** A scripted shell to run the model on *)

Module Toy.

Record Shell : Type := {
  pending_out : string;
  pending_err : string;
  status : option Z
}.

(** What the shell answers to a line of input: stdout bytes, stderr
    bytes, and its exit status when the line ends it. *)
Definition script : list (string * (string * string * option Z)) :=
  [ (command_line "echo hello",
     ("hello" ++ nl ++ _sentinel ++ nl, "", None));
    (command_line "echo a 1>&2",
     (_sentinel ++ nl, "a" ++ nl, None));
    (command_line "(sleep 0.1; echo late) & echo a",
     ("a" ++ nl ++ _sentinel ++ nl ++ "late" ++ nl, "", None));
    (command_line "printf '\377'",
     (String "255" (_sentinel ++ nl), "", None));
    (command_line "ctrl+c",
     (_sentinel ++ nl, "bash: line 1: ctrl+c: command not found" ++ nl, None));
    (command_line "sleep 1000", ("", "", None));
    (command_line "exit 3", ("", "", Some 3%Z)) ].

Fixpoint answer (line : string)
         (tbl : list (string * (string * string * option Z)))
  : string * string * option Z :=
  match tbl with
  | [] => (_sentinel ++ nl, "", None)
  | (l, a) :: r => if String.eqb l line then a else answer line r
  end.

Definition fresh : Shell :=
  {| pending_out := ""; pending_err := ""; status := None |}.

Definition input (line : string) (sh : Shell) : Shell :=
  match status sh with
  | Some _ => sh
  | None =>
    let '(out, err, st) := answer line script in
    {| pending_out := pending_out sh ++ out;
       pending_err := pending_err sh ++ err;
       status := st |}
  end.

Definition tick (sh : Shell) : Shell * (string * string) :=
  ({| pending_out := ""; pending_err := ""; status := status sh |},
   (pending_out sh, pending_err sh)).

Definition kill (sh : Shell) : Shell :=
  {| pending_out := pending_out sh; pending_err := pending_err sh;
     status := match status sh with
               | Some rc => Some rc
               | None => Some (-15)%Z
               end |}.

#[global] Instance shell : Backend Shell :=
  {| spawn := fresh; exit_status := status; feed := input;
     elapse := tick; sigterm := kill; polls := 600;
     spawn_alive := eq_refl |}.

(** A freshly started session of the scripted shell, its process, and
    a tool holding it. *)
Definition session : @_BashSession Shell := started_session.

Definition process : @Process Shell := create_subprocess_shell.

Definition tool : @BashTool Shell := {| _session := Some session |}.

(** A session whose shell has exited with status 3. *)
Definition dead_process : @Process Shell :=
  {| os := {| pending_out := ""; pending_err := ""; status := Some 3%Z |};
     stdin_written := [command_line "exit 3"];
     stdout_buffer := ""; stderr_buffer := ""; signalled := [] |}.

Definition dead_session : @_BashSession Shell :=
  {| _started := true; _timed_out := false; _process := Some dead_process |}.

(** A running session whose reader buffer already holds the late output
    of an earlier background job. *)
Definition lagging_process : @Process Shell :=
  {| os := fresh; stdin_written := [];
     stdout_buffer := "late" ++ nl; stderr_buffer := ""; signalled := [] |}.

Definition lagging_session : @_BashSession Shell :=
  {| _started := true; _timed_out := false;
     _process := Some lagging_process |}.

(** A running session whose shell is about to print the byte 255, from a
    job left in the background. *)
Definition garbled_process : @Process Shell :=
  {| os := {| pending_out := String "255" ""; pending_err := "";
              status := None |};
     stdin_written := []; stdout_buffer := ""; stderr_buffer := "";
     signalled := [] |}.

Definition garbled_session : @_BashSession Shell :=
  {| _started := true; _timed_out := false;
     _process := Some garbled_process |}.

(** A host whose tool has run [echo hello] on its first shell. *)
Definition used_host : @Host Shell :=
  {| bash := snd (forward "echo hello" None new_tool); orphans := [] |}.

(** A running session whose reader buffer holds a sentinel that no call
    has consumed. *)
Definition desynced_process : @Process Shell :=
  {| os := fresh; stdin_written := [];
     stdout_buffer := "old" ++ nl ++ _sentinel ++ nl;
     stderr_buffer := ""; signalled := [] |}.

Definition desynced_session : @_BashSession Shell :=
  {| _started := true; _timed_out := false;
     _process := Some desynced_process |}.

End Toy.

(** * Properties *)

(** ** Text lemmas *)

Module PyStrFacts.
Import PyStr.

Lemma find_none_cons (pat : string) (a : ascii) (s : string) :
  find pat (String a s) = None ->
  prefix pat (String a s) = false /\ find pat s = None.
Proof.
  unfold find. cbn [index].
  destruct (prefix pat (String a s)); [discriminate|].
  destruct (index 0 pat s); [discriminate|]. intros _. split; reflexivity.
Qed.

(** The sentinel has no border: an occurrence cannot start inside the
    text before it and run into it. *)
Lemma sentinel_no_straddle (v rest : string) :
  v <> "" -> prefix _sentinel v = false ->
  prefix _sentinel (v ++ _sentinel ++ rest) = false.
Proof.
  unfold _sentinel. intros Hv. revert Hv.
  destruct v as [|c v]; [congruence|]. intros _.
  do 7 (cbn [prefix append];
        match goal with
        | |- context [ascii_dec ?a ?b] =>
          destruct (ascii_dec a b) as [<-|]; [|reflexivity]
        end;
        destruct v as [|c v]; [intros _; reflexivity|]).
  cbn [prefix append].
  match goal with
  | |- context [ascii_dec ?a ?b] =>
    destruct (ascii_dec a b) as [<-|]; [|reflexivity]
  end.
  destruct v; cbn [prefix]; discriminate.
Qed.

Lemma find_sentinel_after (out rest : string) :
  find _sentinel out = None ->
  find _sentinel (out ++ _sentinel ++ rest) = Some (length out).
Proof.
  induction out as [|a out IH]; intros Hn.
  - destruct rest; reflexivity.
  - destruct (find_none_cons _ _ _ Hn) as [Hp Hr].
    specialize (IH Hr). unfold find in *.
    change (String a out ++ _sentinel ++ rest)
      with (String a (out ++ _sentinel ++ rest)).
    cbn [index].
    change (String a (out ++ _sentinel ++ rest))
      with (String a out ++ _sentinel ++ rest).
    rewrite sentinel_no_straddle by (congruence || assumption).
    rewrite IH. reflexivity.
Qed.

Lemma app_empty_r (s : string) : s ++ "" = s.
Proof. induction s as [|a s IH]; cbn; [|rewrite IH]; reflexivity. Qed.

Lemma app_assoc (s u v : string) : (s ++ u) ++ v = s ++ (u ++ v).
Proof. induction s as [|a s IH]; cbn; [|rewrite IH]; reflexivity. Qed.

Lemma upto_length_app (out tail : string) :
  upto (length out) (out ++ tail) = out.
Proof.
  unfold upto. induction out as [|a out IH]; cbn.
  - destruct tail; reflexivity.
  - rewrite IH. reflexivity.
Qed.

Example chomp_drops_one_newline :
  chomp ("hello" ++ String newline (String newline ""))
  = "hello" ++ String newline "".
Proof. reflexivity. Qed.

Example chomp_keeps_other_text : chomp "hello" = "hello" /\ chomp "" = "".
Proof. split; reflexivity. Qed.

Example of_int_signed : of_int (-15) = "-15" /\ of_int 0 = "0".
Proof. split; reflexivity. Qed.

(** e-acute, the euro sign and an emoji decode; a lone continuation byte,
    an overlong form, a surrogate, a code point past U+10FFFF and a cut
    sequence do not. *)
Example utf8_accepts :
  utf8_valid (String "195" (String "169" "x")) = true /\
  utf8_valid (String "226" (String "130" (String "172" ""))) = true /\
  utf8_valid (String "240" (String "159" (String "152" (String "128" ""))))
  = true.
Proof. repeat split. Qed.

Example utf8_rejects :
  utf8_valid (String "128" "") = false /\
  utf8_valid (String "192" (String "128" "")) = false /\
  utf8_valid (String "224" (String "128" (String "128" ""))) = false /\
  utf8_valid (String "237" (String "160" (String "128" ""))) = false /\
  utf8_valid (String "244" (String "144" (String "128" (String "128" ""))))
  = false /\
  utf8_valid (String "226" (String "130" "")) = false /\
  utf8_valid (String "255" "x") = false.
Proof. repeat split. Qed.

Lemma decode_valid (b : string) :
  utf8_valid b = true -> decode b = Some b.
Proof. unfold decode. intros ->. reflexivity. Qed.

Lemma decode_invalid (b : string) :
  utf8_valid b = false -> decode b = None.
Proof. unfold decode. intros ->. reflexivity. Qed.

End PyStrFacts.


(** ** The session engine *)

Section SessionFacts.

Context {B : Type} `{Backend B}.
Import PyStr PyStrFacts.

Lemma sleep_stdin (p : Process) : stdin_written (sleep p) = stdin_written p.
Proof. unfold sleep. destruct (elapse (os p)) as [b [o e]]. reflexivity. Qed.

Lemma sleep_signalled (p : Process) : signalled (sleep p) = signalled p.
Proof. unfold sleep. destruct (elapse (os p)) as [b [o e]]. reflexivity. Qed.

Lemma after_succ (n : nat) (p : Process) :
  after (S n) p = sleep (after n p).
Proof.
  revert p. induction n as [|n IH]; intros p; [reflexivity|].
  change (after (S (S n)) p) with (after (S n) (sleep p)).
  rewrite IH. reflexivity.
Qed.

Lemma after_stdin (n : nat) (p : Process) :
  stdin_written (after n p) = stdin_written p.
Proof.
  induction n as [|n IH]; [reflexivity|].
  rewrite after_succ, sleep_stdin. exact IH.
Qed.

Lemma after_signalled (n : nat) (p : Process) :
  signalled (after n p) = signalled p.
Proof.
  induction n as [|n IH]; [reflexivity|].
  rewrite after_succ, sleep_signalled. exact IH.
Qed.

(** The loop stops at some poll and leaves the process as that poll
    found it. *)
Lemma wait_stops (n : nat) (q : Process) :
  exists k, k <= n /\ snd (wait_for_sentinel n q) = after k q.
Proof.
  revert q. induction n as [|n IH]; intros q.
  - exists 0. split; [lia|reflexivity].
  - cbn [wait_for_sentinel].
    destruct (decode (stdout_buffer (sleep q))) as [output|].
    + destruct (find _sentinel output) as [i|].
      * exists 1. split; [lia|reflexivity].
      * destruct (IH (sleep q)) as [k [Hk Hq]].
        exists (S k). split; [lia|exact Hq].
    + exists 1. split; [lia|reflexivity].
Qed.

Lemma misses_inv (q : @Process B) :
  misses q = true ->
  decode (stdout_buffer q) = Some (stdout_buffer q) /\
  find _sentinel (stdout_buffer q) = None.
Proof.
  unfold misses. intros Hm. apply andb_prop in Hm as [Hv Hf].
  split; [apply decode_valid; exact Hv|].
  destruct (find _sentinel (stdout_buffer q)); [discriminate|reflexivity].
Qed.

(** Polls that miss are skipped. *)
Lemma wait_skips (k n : nat) (q : Process) :
  forallb (fun j => misses (after j q)) (seq 1 k) = true ->
  wait_for_sentinel (k + n) q = wait_for_sentinel n (after k q).
Proof.
  revert q. induction k as [|k IH]; intros q Hall; [reflexivity|].
  rewrite forallb_forall in Hall.
  assert (H1 : misses (sleep q) = true).
  { apply (Hall 1). apply in_seq. lia. }
  destruct (misses_inv _ H1) as [Hd Hf].
  change (S k + n) with (S (k + n)). cbn [wait_for_sentinel].
  rewrite Hd, Hf. rewrite IH; [reflexivity|].
  apply forallb_forall. intros j Hj. apply in_seq in Hj.
  apply (Hall (S j)). apply in_seq. lia.
Qed.

Lemma wait_times_out (command : string) (p : Process) :
  outlasts_timeout command p = true ->
  wait_for_sentinel polls (stdin_write (command_line command) p)
  = (TimeoutError, polled command p polls).
Proof.
  intros Hout. unfold outlasts_timeout, misses_through, polled in Hout.
  replace polls with (polls + 0) at 1 by lia.
  rewrite wait_skips by exact Hout. reflexivity.
Qed.

Lemma wait_sees (command : string) (p : Process) (d : nat)
      (out rest : string) :
  d < polls ->
  misses_through command p d = true ->
  utf8_valid (stdout_buffer (polled command p (S d))) = true ->
  stdout_buffer (polled command p (S d)) = out ++ _sentinel ++ rest ->
  find _sentinel out = None ->
  wait_for_sentinel polls (stdin_write (command_line command) p)
  = (Seen out, polled command p (S d)).
Proof.
  intros Hd Hmiss Hvalid Hbuf Hout.
  unfold misses_through, polled in *.
  replace polls with (d + S (polls - S d)) by lia.
  rewrite wait_skips by exact Hmiss.
  cbn [wait_for_sentinel]. rewrite <- after_succ.
  rewrite (decode_valid _ Hvalid), Hbuf.
  rewrite (find_sentinel_after _ _ Hout), upto_length_app. reflexivity.
Qed.

(** [run] on a running session, unfolded up to the polling loop. *)
Lemma run_running (command : string) (s : _BashSession) (p : Process) :
  Running s p ->
  run command s =
  match wait_for_sentinel polls (stdin_write (command_line command) p) with
  | (TimeoutError, q) =>
    (Raised (Exception timed_out_message),
     {| _started := true; _timed_out := true; _process := Some q |})
  | (Undecodable, q) =>
    (Raised UnicodeDecodeError,
     {| _started := true; _timed_out := false; _process := Some q |})
  | (Seen output, q) =>
    match decode (stderr_buffer q) with
    | None =>
      (Raised UnicodeDecodeError,
       {| _started := true; _timed_out := false; _process := Some q |})
    | Some error =>
      (Returned [("output", chomp output); ("error", chomp error)],
       {| _started := true; _timed_out := false;
          _process := Some (clear_buffers q) |})
    end
  end.
Proof.
  intros (Hs & Hp & Hrc & Hto). destruct s as [st to pr].
  cbn in Hs, Hp, Hto. subst st to pr.
  unfold run, bind, get, the_process. cbn [_started _process _timed_out negb].
  rewrite Hrc.
  destruct (wait_for_sentinel polls (stdin_write (command_line command) p))
    as [[output| |] q]; try reflexivity.
  unfold set_process, bind. cbn [_started _process _timed_out].
  destruct (decode (stderr_buffer q)); reflexivity.
Qed.

Lemma run_sees (command : string) (s : _BashSession) (p : Process)
      (d : nat) (out rest : string) :
  Running s p ->
  d < polls ->
  misses_through command p d = true ->
  utf8_valid (stdout_buffer (polled command p (S d))) = true ->
  stdout_buffer (polled command p (S d)) = out ++ _sentinel ++ rest ->
  find _sentinel out = None ->
  utf8_valid (stderr_buffer (polled command p (S d))) = true ->
  run command s =
  (Returned [("output", chomp out);
             ("error", chomp (stderr_buffer (polled command p (S d))))],
   {| _started := true; _timed_out := false;
      _process := Some (clear_buffers (polled command p (S d))) |}).
Proof.
  intros Hrun Hd Hmiss Hvalid Hbuf Hout Herr.
  rewrite (run_running _ _ _ Hrun).
  rewrite (wait_sees _ _ _ _ _ Hd Hmiss Hvalid Hbuf Hout).
  rewrite (decode_valid _ Herr). reflexivity.
Qed.

Lemma run_times_out (command : string) (s : _BashSession) (p : Process) :
  Running s p ->
  outlasts_timeout command p = true ->
  run command s =
  (Raised (Exception timed_out_message),
   {| _started := true; _timed_out := true;
      _process := Some (polled command p polls) |}).
Proof.
  intros Hrun Hout.
  rewrite (run_running _ _ _ Hrun), (wait_times_out _ _ Hout). reflexivity.
Qed.

Lemma run_exited (command : string) (s : _BashSession) (p : Process)
      (rc : Z) :
  Exited s p rc -> run command s = (Returned (exited_result rc), s).
Proof.
  intros (Hs & Hp & Hrc). destruct s as [st to pr].
  cbn in Hs, Hp. subst st pr.
  unfold run, bind, get, the_process. cbn [_started _process negb].
  rewrite Hrc. reflexivity.
Qed.

Lemma run_timed_out (command : string) (s : _BashSession) (p : Process) :
  TimedOut s p ->
  run command s = (Raised (Exception timed_out_message), s).
Proof.
  intros (Hs & Hp & Hrc & Hto). destruct s as [st to pr].
  cbn in Hs, Hp, Hto. subst st to pr.
  unfold run, bind, get, the_process. cbn [_started _process _timed_out negb].
  rewrite Hrc. reflexivity.
Qed.

(** Whatever way [run] ends on a running session, the process it
    leaves is the one some poll found, with the buffers cleared or
    not. *)
Lemma run_running_process (command : string) (s : _BashSession)
      (p : Process) :
  Running s p ->
  exists k, k <= polls /\
    (_process (snd (run command s)) = Some (polled command p k) \/
     _process (snd (run command s))
     = Some (clear_buffers (polled command p k))).
Proof.
  intros Hrun. rewrite (run_running _ _ _ Hrun).
  destruct (wait_stops polls (stdin_write (command_line command) p))
    as (k & Hk & Hq).
  exists k. split; [exact Hk|]. unfold polled. rewrite <- Hq.
  destruct (wait_for_sentinel polls (stdin_write (command_line command) p))
    as [[output| |] q]; cbn [snd _process]; try (left; reflexivity).
  destruct (decode (stderr_buffer q)); cbn [snd _process];
    [right|left]; reflexivity.
Qed.

(** A returned [{output, error}] record comes from the last branch of
    [run]. *)
Lemma run_success_inv (command : string) (s s' : _BashSession)
      (o e : string) :
  run command s = (Returned [("output", o); ("error", e)], s') ->
  exists q, _process s' = Some (clear_buffers q).
Proof.
  unfold run, bind, get, the_process.
  destruct (negb (_started s)); [discriminate|].
  destruct (_process s) as [p|]; [|discriminate].
  destruct (returncode p); [discriminate|].
  destruct (_timed_out s); [discriminate|].
  destruct (wait_for_sentinel polls (stdin_write (command_line command) p))
    as [[output| |] q]; try discriminate.
  unfold set_process. destruct (decode (stderr_buffer q)); [|discriminate].
  intros Heq. injection Heq as _ _ <-. exists q. reflexivity.
Qed.

Lemma run_keeps_started (command : string) (s : _BashSession)
      (p : Process) :
  _started s = true -> _process s = Some p ->
  exists p',
    _started (snd (run command s)) = true /\
    _process (snd (run command s)) = Some p'.
Proof.
  intros Hs Hp. destruct s as [st to pr]. cbn in Hs, Hp. subst st pr.
  unfold run, bind, get, the_process. cbn [_started _process _timed_out negb].
  destruct (returncode p); [eexists; split; reflexivity|].
  destruct to; [eexists; split; reflexivity|].
  destruct (wait_for_sentinel polls (stdin_write (command_line command) p))
    as [[output| |] q]; try (eexists; split; reflexivity).
  unfold set_process, bind. cbn [_started _process _timed_out].
  destruct (decode (stderr_buffer q)); eexists; split; reflexivity.
Qed.

Lemma stop_started (s : _BashSession) (p : Process) :
  _started s = true -> _process s = Some p ->
  stop s =
  (Returned tt,
   {| _started := true; _timed_out := _timed_out s;
      _process := Some match returncode p with
                       | Some _ => p
                       | None => terminate p
                       end |}).
Proof.
  intros Hs Hp. destruct s as [st to pr]. cbn in Hs, Hp. subst st pr.
  unfold stop, bind, get, the_process. cbn [_started _process negb].
  destruct (returncode p); reflexivity.
Qed.

Lemma start_new_session : start new_session = (Returned tt, started_session).
Proof. reflexivity. Qed.

Lemma started_session_running :
  Running started_session create_subprocess_shell.
Proof.
  unfold Running, started_session, returncode, create_subprocess_shell.
  cbn. repeat split; try reflexivity. apply spawn_alive.
Qed.

(** The bytes in the buffers after [n] delays are those that were there
    followed by what the backend produced meanwhile. *)
Lemma after_buffers (n : nat) (q : Process) :
  stdout_buffer (after n q) = stdout_buffer q ++ fst (produced n (os q)) /\
  stderr_buffer (after n q) = stderr_buffer q ++ snd (produced n (os q)).
Proof.
  revert q. induction n as [|n IH]; intros q.
  - cbn. split; symmetry; apply PyStrFacts.app_empty_r.
  - cbn [after produced]. destruct (IH (sleep q)) as [Ho He].
    rewrite Ho, He. unfold sleep.
    destruct (elapse (os q)) as [b [out err]]. cbn [os stdout_buffer stderr_buffer].
    destruct (produced n b) as [outs errs]. cbn [fst snd].
    split; apply PyStrFacts.app_assoc.
Qed.

End SessionFacts.

(** ** The tool facade *)

Section FacadeFacts.

Context {B : Type} `{Backend B}.

Lemma forward_without_restart (command : string) (restart : option bool)
      (s : _BashSession) :
  truthy restart = false ->
  forward command restart {| _session := Some s |} =
  if nonempty command then on_session (run command) {| _session := Some s |}
  else (Raised (Exception no_command_message), {| _session := Some s |}).
Proof.
  intros Hr. unfold forward. rewrite Hr. unfold bind, get, ret.
  cbn [_session]. destruct (nonempty command); reflexivity.
Qed.

Lemma forward_first_call (command : string) (restart : option bool) :
  truthy restart = false ->
  forward command restart new_tool =
  if nonempty command
  then on_session (run command) {| _session := Some started_session |}
  else (Raised (Exception no_command_message),
        {| _session := Some started_session |}).
Proof.
  intros Hr. unfold forward. rewrite Hr. unfold bind, get, ret, put, new_tool.
  cbn [_session on_session]. rewrite start_new_session.
  destruct (nonempty command); reflexivity.
Qed.

Lemma forward_restart (command : string) (t : BashTool) :
  tool_ok t ->
  forward command (Some true) t =
  (Returned restarted_result, {| _session := Some started_session |}).
Proof.
  intros Hok. unfold forward, tool_ok in *. cbn [truthy].
  unfold bind, get, ret, put. destruct (_session t) as [s|] eqn:Hs.
  - destruct Hok as (p & Hst & Hp). unfold on_session at 1. rewrite Hs.
    rewrite (stop_started _ _ Hst Hp). cbn [on_session _session].
    rewrite start_new_session. reflexivity.
  - cbn [on_session _session]. rewrite start_new_session. reflexivity.
Qed.

(** A tool whose session has recorded a timeout turns every call
    without restart away and is not changed by it. *)
Lemma forward_after_timeout (command : string) (restart : option bool)
      (t : BashTool) :
  tool_timed_out t -> truthy restart = false ->
  exists r, refused r /\ forward command restart t = (r, t).
Proof.
  intros (s & p & Hs & Hst & Hp & Hto) Hr. destruct t as [ses].
  cbn in Hs. subst ses. rewrite (forward_without_restart _ _ _ Hr).
  destruct (nonempty command).
  - unfold on_session. cbn [_session].
    destruct (returncode p) as [rc|] eqn:Hrc.
    + rewrite (run_exited command s p rc) by (repeat split; assumption).
      eexists. split; [|reflexivity]. right. right. exists rc. reflexivity.
    + rewrite (run_timed_out command s p) by (repeat split; assumption).
      eexists. split; [|reflexivity]. left. reflexivity.
  - eexists. split; [|reflexivity]. right. left. reflexivity.
Qed.

Lemma idle_after_timeout (t : BashTool) :
  tool_timed_out t ->
  tool_timed_out (idle t) /\ session_stdin (idle t) = session_stdin t.
Proof.
  intros (s & p & Hs & Hst & Hp & Hto).
  unfold idle, session_stdin, tool_timed_out. rewrite Hs, Hp. cbn [_session _process].
  split.
  - exists {| _started := _started s; _timed_out := _timed_out s;
             _process := Some (sleep p) |}, (sleep p).
    cbn. repeat split; assumption.
  - apply sleep_stdin.
Qed.

Lemma idles_after_timeout (n : nat) (t : BashTool) :
  tool_timed_out t ->
  tool_timed_out (Nat.iter n idle t) /\
  session_stdin (Nat.iter n idle t) = session_stdin t.
Proof.
  intros Ht. induction n as [|n [IHt IHs]]; [split; [exact Ht|reflexivity]|].
  change (Nat.iter (S n) idle t) with (idle (Nat.iter n idle t)).
  destruct (idle_after_timeout _ IHt) as [Ht' Hs'].
  split; [exact Ht'|]. rewrite Hs'. exact IHs.
Qed.

Lemma play_after_timeout (sched : list Step) (t : BashTool) :
  tool_timed_out t ->
  forallb no_restart sched = true ->
  exists rs,
    play sched t = (rs, Nat.iter (pauses sched) idle t) /\
    List.length rs = calls sched /\
    Forall refused rs.
Proof.
  revert t. induction sched as [|st rest IH]; intros t Ht Hall.
  - exists []. repeat split. constructor.
  - cbn [forallb] in Hall. apply andb_prop in Hall as [Hst Hrest].
    destruct st as [command restart|].
    + cbn [no_restart] in Hst. apply negb_true_iff in Hst.
      destruct (forward_after_timeout command restart t Ht Hst)
        as (r & Hr & Hf).
      destruct (IH t Ht Hrest) as (rs & Hp & Hl & Hrs).
      exists (r :: rs). cbn [play pauses calls]. rewrite Hf, Hp.
      repeat split; [cbn; congruence|constructor; assumption].
    + destruct (idle_after_timeout _ Ht) as [Ht' _].
      destruct (IH (idle t) Ht' Hrest) as (rs & Hp & Hl & Hrs).
      exists rs. cbn [play pauses calls]. rewrite Hp, Nat.iter_succ_r.
      repeat split; assumption.
Qed.

(** What the tool itself sees of [forward_host] is [forward]. *)
Lemma forward_host_tool (command : string) (restart : option bool)
      (h : Host) :
  fst (forward_host command restart h) = fst (forward command restart (bash h))
  /\
  bash (snd (forward_host command restart h))
  = snd (forward command restart (bash h)).
Proof.
  destruct h as [[ses] orph].
  unfold forward_host, forward, bind, get, put, ret, raise, in_tool,
    assign_session, on_session.
  destruct (truthy restart).
  - destruct ses as [s|]; [|split; reflexivity].
    cbv beta iota zeta delta [bash orphans _session].
    destruct (stop s) as [[u|e] s']; split; reflexivity.
  - destruct ses as [s|].
    + cbv beta iota zeta delta [bash orphans _session].
      destruct (nonempty command); [|split; reflexivity].
      destruct (run command s) as [r s']. split; reflexivity.
    + cbv beta iota zeta delta [bash orphans _session].
      rewrite start_new_session.
      destruct (nonempty command); [|split; reflexivity].
      destruct (run command started_session) as [r s']. split; reflexivity.
Qed.

(** The restart branch in a host: the old shell, as [stop] left it, joins
    the orphans. *)
Lemma forward_host_restart (command : string) (h : Host) :
  tool_ok (bash h) ->
  forward_host command (Some true) h
  = (Returned restarted_result,
     {| bash := {| _session := Some started_session |};
        orphans := orphans h
                   ++ map (fun p => match returncode p with
                                    | Some _ => p
                                    | None => terminate p
                                    end)
                          (process_of (bash h)) |}).
Proof.
  intros Hok. destruct h as [[ses] orph]. unfold tool_ok in Hok.
  cbn [bash _session] in Hok.
  unfold forward_host, bind, get, ret, in_tool, assign_session, on_session,
    process_of.
  cbv beta iota zeta delta [truthy bash orphans _session].
  destruct ses as [s|].
  - destruct Hok as (p & Hst & Hp). destruct s as [st to pr].
    cbn in Hst, Hp. subst st pr.
    rewrite (stop_started
               {| _started := true; _timed_out := to; _process := Some p |}
               p eq_refl eq_refl).
    cbv beta iota zeta delta [bash orphans _session _process _timed_out].
    rewrite start_new_session. reflexivity.
  - cbv beta iota zeta delta [bash orphans _session].
    rewrite start_new_session. reflexivity.
Qed.

(** No call and no pause leaves the tool with a session that was never
    started. *)
Lemma forward_keeps_ok (command : string) (restart : option bool)
      (t : BashTool) :
  tool_ok t -> tool_ok (snd (forward command restart t)).
Proof.
  intros Hok. destruct (truthy restart) eqn:Hr.
  - destruct restart as [[|]|]; try discriminate.
    rewrite (forward_restart command t Hok).
    exists create_subprocess_shell. split; reflexivity.
  - destruct t as [[s|]].
    + rewrite (forward_without_restart _ _ _ Hr).
      destruct (nonempty command); [|exact Hok].
      destruct Hok as (p & Hs & Hp).
      destruct (run_keeps_started command s p Hs Hp) as (p' & Hs' & Hp').
      unfold on_session. cbn [_session].
      destruct (run command s) as [r s']. exists p'. split; assumption.
    + change {| _session := None |} with (@new_tool B).
      rewrite (forward_first_call _ _ Hr).
      destruct (nonempty command).
      * destruct (run_keeps_started command started_session
                                    create_subprocess_shell eq_refl eq_refl)
          as (p' & Hs' & Hp').
        unfold on_session. cbn [_session].
        destruct (run command started_session) as [r s'].
        exists p'. split; assumption.
      * exists create_subprocess_shell. split; reflexivity.
Qed.

Lemma idle_keeps_ok (t : BashTool) : tool_ok t -> tool_ok (idle t).
Proof.
  unfold tool_ok, idle. destruct (_session t) as [s|] eqn:Ht.
  - intros (p & Hs & Hp). rewrite Hp. cbn [_session].
    exists (sleep p). split; [exact Hs|reflexivity].
  - rewrite Ht. trivial.
Qed.

Lemma play_keeps_ok (sched : list Step) (t : BashTool) :
  tool_ok t -> tool_ok (snd (play sched t)).
Proof.
  revert t. induction sched as [|st rest IH]; intros t Hok; [exact Hok|].
  destruct st as [command restart|]; cbn [play].
  - pose proof (forward_keeps_ok command restart t Hok) as Hok'.
    destruct (forward command restart t) as [r t'].
    specialize (IH t' Hok'). destruct (play rest t') as [rs t''].
    exact IH.
  - apply IH, idle_keeps_ok, Hok.
Qed.

Lemma reachable_tool_ok (sched : list Step) :
  tool_ok (snd (play sched new_tool)).
Proof. apply play_keeps_ok. exact I. Qed.

End FacadeFacts.

(** ** The engine's contract *)

Section Engine.

Context {B : Type} `{Backend B}.
Import PyStr.

(** C1 (as amended).  On a running session, when the sentinel first shows
    at poll [d + 1], within the timeout, after captured stdout bytes [out]
    that do not contain it, and the buffers decode as UTF-8 whenever the
    loop reads them, [run] returns [out] and the captured stderr bytes,
    each less one final newline if it has one. *)
Theorem run_returns_decodable_streams
        (command : string) (s : _BashSession) (p : Process)
        (d : nat) (out rest : string) :
  Running s p ->
  d < polls ->
  misses_through command p d = true ->
  utf8_valid (stdout_buffer (polled command p (S d))) = true ->
  stdout_buffer (polled command p (S d)) = out ++ _sentinel ++ rest ->
  find _sentinel out = None ->
  utf8_valid (stderr_buffer (polled command p (S d))) = true ->
  fst (run command s)
  = Returned [("output", chomp out);
              ("error", chomp (stderr_buffer (polled command p (S d))))].
Proof.
  intros Hrun Hd Hmiss Hvalid Hbuf Hout Herr.
  rewrite (run_sees _ _ _ _ _ _ Hrun Hd Hmiss Hvalid Hbuf Hout Herr).
  reflexivity.
Qed.

(** C3 (as amended).  A command that is still without its sentinel when
    the timeout fires, the stdout buffer having decoded at every poll,
    makes [run] raise the timeout exception and set [_timed_out];
    after that every call without restart, whatever pauses lie between,
    is refused and leaves the tool as the pauses alone would: the flag
    stays set and nothing more is written to the shell's input. *)
Theorem timeout_is_sticky
        (command : string) (s : _BashSession) (p : Process)
        (sched : list Step) :
  Running s p ->
  outlasts_timeout command p = true ->
  forallb no_restart sched = true ->
  exists s' rs,
    run command s = (Raised (Exception timed_out_message), s') /\
    _timed_out s' = true /\
    play sched {| _session := Some s' |}
    = (rs, Nat.iter (pauses sched) idle {| _session := Some s' |}) /\
    List.length rs = calls sched /\
    Forall refused rs /\
    tool_timed_out (Nat.iter (pauses sched) idle {| _session := Some s' |}) /\
    session_stdin (Nat.iter (pauses sched) idle {| _session := Some s' |})
    = (stdin_written p ++ [command_line command])%list.
Proof.
  intros Hrun Hout Hsched.
  set (s' := {| _started := true; _timed_out := true;
                _process := Some (polled command p polls) |}).
  assert (Hto : tool_timed_out {| _session := Some s' |}).
  { exists s', (polled command p polls). repeat split. }
  destruct (play_after_timeout sched _ Hto Hsched) as (rs & Hplay & Hlen & Hrs).
  destruct (idles_after_timeout (pauses sched) _ Hto) as [Hto' Hin].
  exists s', rs. repeat split; try assumption.
  - apply run_times_out; assumption.
  - rewrite Hin. unfold session_stdin, s', polled. cbn [_session _process].
    rewrite after_stdin. reflexivity.
Qed.

(** C4.  On a session whose shell has exited, [run] returns the
    must-restart record, raises nothing, and leaves the session, the
    shell's input included, as it was. *)
Theorem exited_session_must_restart
        (command : string) (s : _BashSession) (p : Process) (rc : Z) :
  Exited s p rc ->
  run command s
  = (Returned [("system", "tool must be restarted");
               ("error", "bash has exited with returncode " ++ of_int rc)],
     s).
Proof. intros Hex. apply (run_exited command s p rc Hex). Qed.

(** C7 (what the code does).  The token [ctrl+c] is a command like any
    other: on a running session [run] writes it, with the sentinel echo,
    to the shell's input, and sends no signal. *)
Theorem interrupt_token_written_as_text (s : _BashSession) (p : Process) :
  Running s p ->
  exists p',
    _process (snd (run "ctrl+c" s)) = Some p' /\
    stdin_written p'
    = (stdin_written p ++ [("ctrl+c; echo '<<exit>>'" ++ nl)%string])%list /\
    signalled p' = signalled p.
Proof.
  intros Hrun.
  destruct (run_running_process "ctrl+c" s p Hrun) as (k & _ & [Hp | Hp]);
    rewrite Hp; eexists; (split; [reflexivity|]); unfold polled;
    cbn [clear_buffers stdin_written signalled];
    rewrite after_stdin, after_signalled; split; reflexivity.
Qed.

(** C8.  After every call of [run] that returns an [{output, error}]
    record both reader buffers are empty; so what any poll of a later
    command finds in them, [i] idle delays and [n] polls on, is exactly
    what the shell produced since. *)
Theorem buffers_empty_after_success
        (command : string) (s s' : _BashSession) (o e : string) :
  run command s = (Returned [("output", o); ("error", e)], s') ->
  exists p',
    _process s' = Some p' /\
    stdout_buffer p' = "" /\
    stderr_buffer p' = "" /\
    forall (i : nat) (command' : string) (n : nat),
      stdout_buffer (polled command' (after i p') n)
      = fst (produced i (os p'))
        ++ fst (produced n (feed (command_line command') (os (after i p'))))
      /\
      stderr_buffer (polled command' (after i p') n)
      = snd (produced i (os p'))
        ++ snd (produced n (feed (command_line command') (os (after i p')))).
Proof.
  intros Hret. destruct (run_success_inv _ _ _ _ _ Hret) as (q & Hq).
  exists (clear_buffers q). repeat split; try assumption.
  - unfold polled.
    destruct (after_buffers n (stdin_write (command_line command')
                                           (after i (clear_buffers q))))
      as [Ho _].
    rewrite Ho. cbn [stdin_write stdout_buffer os].
    destruct (after_buffers i (clear_buffers q)) as [Ho' _].
    rewrite Ho'. reflexivity.
  - unfold polled.
    destruct (after_buffers n (stdin_write (command_line command')
                                           (after i (clear_buffers q))))
      as [_ He].
    rewrite He. cbn [stdin_write stderr_buffer os].
    destruct (after_buffers i (clear_buffers q)) as [_ He'].
    rewrite He'. reflexivity.
Qed.

(** C9 (as amended).  When the sentinel is seen, the text before its
    first occurrence is the output; the sentinel and every byte after it
    are dropped with the rest of the buffer: they are not in the result
    and both buffers are empty afterwards.  The error text is read from
    its own buffer. *)
Theorem tail_after_sentinel_discarded
        (command : string) (s : _BashSession) (p : Process)
        (d : nat) (out rest : string) :
  Running s p ->
  d < polls ->
  misses_through command p d = true ->
  utf8_valid (stdout_buffer (polled command p (S d))) = true ->
  stdout_buffer (polled command p (S d)) = out ++ _sentinel ++ rest ->
  find _sentinel out = None ->
  utf8_valid (stderr_buffer (polled command p (S d))) = true ->
  exists p',
    run command s
    = (Returned [("output", chomp out);
                 ("error", chomp (stderr_buffer (polled command p (S d))))],
       {| _started := true; _timed_out := false; _process := Some p' |}) /\
    stdout_buffer p' = "" /\
    stderr_buffer p' = "" /\
    os p' = os (polled command p (S d)).
Proof.
  intros Hrun Hd Hmiss Hvalid Hbuf Hout Herr.
  exists (clear_buffers (polled command p (S d))).
  rewrite (run_sees _ _ _ _ _ _ Hrun Hd Hmiss Hvalid Hbuf Hout Herr).
  repeat split.
Qed.

End Engine.

(** ** The facade's contract *)

Section Facade.

Context {B : Type} `{Backend B}.

(** C2 (what the code does).  An empty command is never handed to [run]:
    with a session in place, whatever its state, [forward] raises
    [no command provided.] and leaves the tool, buffers included,
    untouched. *)
Theorem empty_command_never_polls (s : _BashSession) :
  forward "" None {| _session := Some s |}
  = (Raised (Exception "no command provided."), {| _session := Some s |}) /\
  forward "" (Some false) {| _session := Some s |}
  = (Raised (Exception "no command provided."), {| _session := Some s |}).
Proof. split; reflexivity. Qed.

(** C5.  With [restart] set, from a tool that holds no session or a
    started one (running, timed out or exited), [forward] returns the
    acknowledgement and raises nothing.  The shell the tool held is let go
    as it was, with one SIGTERM more if it was alive and nothing more if it
    had exited, and with no input added: the command text is not written
    to it.  The tool then holds a new, started session whose shell is
    alive, has no timeout recorded and has received no input either. *)
Theorem restart_yields_running (command : string) (h : Host) :
  tool_ok (bash h) ->
  (forall s p,
      _session (bash h) = Some s -> _process s = Some p ->
      returncode p = None ->
      forward_host command (Some true) h
      = (Returned [("system", "tool has been restarted")],
         {| bash := {| _session := Some started_session |};
            orphans :=
              orphans h
              ++ [{| os := sigterm (os p);
                     stdin_written := stdin_written p;
                     stdout_buffer := stdout_buffer p;
                     stderr_buffer := stderr_buffer p;
                     signalled := signalled p ++ [SIGTERM] |}] |})) /\
  (forall s p rc,
      _session (bash h) = Some s -> _process s = Some p ->
      returncode p = Some rc ->
      forward_host command (Some true) h
      = (Returned [("system", "tool has been restarted")],
         {| bash := {| _session := Some started_session |};
            orphans := orphans h ++ [p] |})) /\
  (_session (bash h) = None ->
   forward_host command (Some true) h
   = (Returned [("system", "tool has been restarted")],
      {| bash := {| _session := Some started_session |};
         orphans := orphans h |})) /\
  forward command (Some true) (bash h)
  = (Returned [("system", "tool has been restarted")],
     {| _session := Some started_session |}) /\
  Running started_session create_subprocess_shell /\
  stdin_written create_subprocess_shell = [].
Proof.
  intros Hok. pose proof (forward_host_restart command h Hok) as Hh.
  unfold process_of in Hh. split; [|split; [|split; [|split; [|split]]]].
  - intros s p Hs Hp Hrc. rewrite Hh, Hs, Hp. cbn [map]. rewrite Hrc.
    reflexivity.
  - intros s p rc Hs Hp Hrc. rewrite Hh, Hs, Hp. cbn [map]. rewrite Hrc.
    reflexivity.
  - intros Hs. rewrite Hh, Hs. cbn [map].
    rewrite List.app_nil_r. reflexivity.
  - apply forward_restart. exact Hok.
  - apply started_session_running.
  - reflexivity.
Qed.

(** C6 (as amended).  Of the three conditions only the exited shell is
    reported by a returned record; the timeout and the empty first call
    are raised as exceptions that carry a message and leave [forward]
    uncaught. *)
Theorem failures_returned_or_raised :
  (forall (command : string) (restart : option bool)
          (s : _BashSession) (p : Process) (rc : Z),
      truthy restart = false -> nonempty command = true ->
      Exited s p rc ->
      fst (forward command restart {| _session := Some s |})
      = Returned [("system", "tool must be restarted");
                  ("error", "bash has exited with returncode "
                              ++ PyStr.of_int rc)]) /\
  (forall (command : string) (restart : option bool)
          (s : _BashSession) (p : Process),
      truthy restart = false -> nonempty command = true ->
      Running s p -> outlasts_timeout command p = true ->
      fst (forward command restart {| _session := Some s |})
      = Raised (Exception "timed out: bash has not returned in 120.0 seconds and must be restarted")) /\
  (forall (restart : option bool),
      truthy restart = false ->
      fst (forward "" restart new_tool)
      = Raised (Exception "no command provided.")).
Proof.
  repeat split.
  - intros command restart s p rc Hr Hc Hex.
    rewrite (forward_without_restart _ _ _ Hr), Hc.
    unfold on_session. cbn [_session].
    rewrite (run_exited command s p rc Hex). reflexivity.
  - intros command restart s p Hr Hc Hrun Hout.
    rewrite (forward_without_restart _ _ _ Hr), Hc.
    unfold on_session. cbn [_session].
    rewrite (run_times_out command s p Hrun Hout). reflexivity.
  - intros restart Hr. rewrite (forward_first_call _ _ Hr). reflexivity.
Qed.

(** C10.  The first call of a tool, made without restart and with an
    empty command, creates the session and starts its shell before it
    raises: the tool is left holding a running session. *)
Theorem first_empty_call_starts_session
        (restart : option bool) (t : BashTool) :
  truthy restart = false ->
  _session t = None ->
  forward "" restart t
  = (Raised (Exception "no command provided."),
     {| _session := Some started_session |}) /\
  Running started_session create_subprocess_shell.
Proof.
  intros Hr Hs. destruct t as [ses]. cbn in Hs. subst ses. split.
  - apply (forward_first_call "" restart Hr).
  - apply started_session_running.
Qed.

End Facade.

(** ** Runs on the scripted shell *)

Lemma toy_running : Running Toy.session Toy.process.
Proof. repeat split. Qed.

Lemma toy_patience : 0 < @polls _ Toy.shell.
Proof. apply Nat.ltb_lt. reflexivity. Qed.

Lemma run_returns_decodable_streams_witness :
  fst (run "echo hello" Toy.session)
  = Returned [("output", "hello"); ("error", "")].
Proof.
  exact (run_returns_decodable_streams
           "echo hello" Toy.session Toy.process 0 ("hello" ++ nl) nl
           toy_running toy_patience eq_refl eq_refl eq_refl eq_refl eq_refl).
Defined.

(** The shell prints the byte 255 before the sentinel: the premises of C1
    hold, and [run] raises instead of returning the captured bytes. *)
Lemma binary_output_raises :
  Running Toy.session Toy.process /\
  stdout_buffer (polled "printf '\377'" Toy.process 1)
  = String "255" "" ++ _sentinel ++ nl /\
  PyStr.find _sentinel (String "255" "") = None /\
  stderr_buffer (polled "printf '\377'" Toy.process 1) = "" /\
  PyStr.find _sentinel "" = None /\
  fst (run "printf '\377'" Toy.session) = Raised UnicodeDecodeError.
Proof. repeat split. Qed.

Lemma timeout_is_sticky_witness :
  exists s' rs,
    run "sleep 1000" Toy.session
    = (Raised (Exception timed_out_message), s') /\
    _timed_out s' = true /\
    play [Call "echo hello" None; Pause; Call "" (Some false)]
         {| _session := Some s' |}
    = (rs, Nat.iter 1 idle {| _session := Some s' |}) /\
    List.length rs = 2 /\
    Forall refused rs /\
    tool_timed_out (Nat.iter 1 idle {| _session := Some s' |}) /\
    session_stdin (Nat.iter 1 idle {| _session := Some s' |})
    = [command_line "sleep 1000"].
Proof.
  apply (timeout_is_sticky
           "sleep 1000" Toy.session Toy.process
           [Call "echo hello" None; Pause; Call "" (Some false)]).
  - exact toy_running.
  - vm_compute. reflexivity.
  - reflexivity.
Defined.

(** A byte 255 reaches the buffer while [sleep 1000] runs: no poll up to
    the timeout finds a sentinel, yet the call raises
    [UnicodeDecodeError] at once, records no timeout, and the next command
    is written to the shell. *)
Lemma undecodable_output_preempts_timeout :
  Running Toy.garbled_session Toy.garbled_process /\
  forallb (fun j =>
             match PyStr.find _sentinel
                     (stdout_buffer
                        (polled "sleep 1000" Toy.garbled_process j)) with
             | Some _ => false
             | None => true
             end)
          (seq 1 (@polls _ Toy.shell)) = true /\
  fst (run "sleep 1000" Toy.garbled_session) = Raised UnicodeDecodeError /\
  _timed_out (snd (run "sleep 1000" Toy.garbled_session)) = false /\
  fst (forward "echo hello" None
               {| _session :=
                    Some (snd (run "sleep 1000" Toy.garbled_session)) |})
  = Raised UnicodeDecodeError /\
  session_stdin
    (snd (forward "echo hello" None
                  {| _session :=
                       Some (snd (run "sleep 1000" Toy.garbled_session)) |}))
  = [command_line "sleep 1000"; command_line "echo hello"].
Proof.
  split; [repeat split|].
  split; [vm_compute; reflexivity|].
  repeat split.
Qed.

Lemma exited_session_must_restart_witness :
  run "echo hello" Toy.dead_session
  = (Returned [("system", "tool must be restarted");
               ("error", "bash has exited with returncode 3")],
     Toy.dead_session).
Proof.
  apply (exited_session_must_restart
           "echo hello" Toy.dead_session Toy.dead_process 3).
  repeat split.
Defined.

Lemma interrupt_token_written_as_text_witness :
  exists p',
    _process (snd (run "ctrl+c" Toy.session)) = Some p' /\
    stdin_written p' = ["ctrl+c; echo '<<exit>>'" ++ nl] /\
    signalled p' = [].
Proof.
  apply (interrupt_token_written_as_text Toy.session Toy.process).
  exact toy_running.
Defined.

Lemma buffers_empty_after_success_witness :
  exists p',
    _process (snd (run "echo hello" Toy.session)) = Some p' /\
    stdout_buffer p' = "" /\
    stderr_buffer p' = "".
Proof.
  assert (Hrun : run "echo hello" Toy.session
                 = (Returned [("output", "hello"); ("error", "")],
                    snd (run "echo hello" Toy.session)))
    by (vm_compute; reflexivity).
  destruct (buffers_empty_after_success
              "echo hello" Toy.session (snd (run "echo hello" Toy.session))
              "hello" "" Hrun)
    as (p' & Hp & Ho & He & _).
  exists p'. repeat split; assumption.
Defined.

Lemma tail_after_sentinel_discarded_witness :
  exists p',
    run "(sleep 0.1; echo late) & echo a" Toy.session
    = (Returned [("output", "a"); ("error", "")],
       {| _started := true; _timed_out := false; _process := Some p' |}) /\
    stdout_buffer p' = "" /\
    stderr_buffer p' = "" /\
    os p' = Toy.fresh.
Proof.
  exact (tail_after_sentinel_discarded
           "(sleep 0.1; echo late) & echo a" Toy.session Toy.process 0
           ("a" ++ nl) (nl ++ "late" ++ nl)
           toy_running toy_patience eq_refl eq_refl eq_refl eq_refl eq_refl).
Defined.

(** The first poll finds [late] after the sentinel; the call returns [a]
    only, and the buffer it leaves holds nothing: the bytes after the
    sentinel are neither returned nor kept. *)
Lemma late_output_is_lost :
  stdout_buffer (polled "(sleep 0.1; echo late) & echo a" Toy.process 1)
  = ("a" ++ nl) ++ _sentinel ++ (nl ++ "late" ++ nl) /\
  run "(sleep 0.1; echo late) & echo a" Toy.session
  = (Returned [("output", "a"); ("error", "")],
     {| _started := true; _timed_out := false;
        _process :=
          Some {| os := Toy.fresh;
                  stdin_written :=
                    [command_line "(sleep 0.1; echo late) & echo a"];
                  stdout_buffer := "";
                  stderr_buffer := "";
                  signalled := [] |} |}).
Proof. split; reflexivity. Qed.

(** The first shell has run [echo hello]; the restart comes with the
    command [touch x].  The shell let go has received [echo hello] only and
    one SIGTERM; the new shell has received nothing. *)
Lemma restart_yields_running_witness :
  forward_host "touch x" (Some true) Toy.used_host
  = (Returned [("system", "tool has been restarted")],
     {| bash := {| _session := Some started_session |};
        orphans :=
          [{| os := Toy.kill Toy.fresh;
              stdin_written := [command_line "echo hello"];
              stdout_buffer := "";
              stderr_buffer := "";
              signalled := [SIGTERM] |}] |}) /\
  forward_host "touch x" (Some true)
               {| bash := {| _session := Some Toy.dead_session |};
                  orphans := [] |}
  = (Returned [("system", "tool has been restarted")],
     {| bash := {| _session := Some started_session |};
        orphans := [Toy.dead_process] |}) /\
  forward_host "touch x" (Some true)
               {| bash := @new_tool Toy.Shell; orphans := [] |}
  = (Returned [("system", "tool has been restarted")],
     {| bash := {| _session := Some started_session |}; orphans := [] |}).
Proof.
  split; [|split].
  - refine (proj1 (restart_yields_running "touch x" Toy.used_host _)
                  _ _ eq_refl eq_refl eq_refl).
    apply forward_keeps_ok. exact I.
  - refine (proj1 (proj2 (restart_yields_running
                            "touch x"
                            {| bash := {| _session := Some Toy.dead_session |};
                               orphans := [] |} _))
                  Toy.dead_session Toy.dead_process 3%Z
                  eq_refl eq_refl eq_refl).
    exists Toy.dead_process. split; reflexivity.
  - refine (proj1 (proj2 (proj2 (restart_yields_running
                                   "touch x"
                                   {| bash := @new_tool Toy.Shell;
                                      orphans := [] |} _)))
                  eq_refl).
    exact I.
Defined.

Lemma failures_returned_or_raised_witness :
  fst (forward "echo hello" None {| _session := Some Toy.dead_session |})
  = Returned [("system", "tool must be restarted");
              ("error", "bash has exited with returncode 3")] /\
  fst (forward "sleep 1000" None Toy.tool)
  = Raised (Exception "timed out: bash has not returned in 120.0 seconds and must be restarted") /\
  fst (forward "" None (@new_tool Toy.Shell))
  = Raised (Exception "no command provided.").
Proof.
  destruct (@failures_returned_or_raised _ Toy.shell) as (Hex & Hto & Hno).
  split; [|split].
  - apply (Hex "echo hello" None Toy.dead_session Toy.dead_process 3%Z);
      repeat split.
  - apply (Hto "sleep 1000" None Toy.session Toy.process).
    + reflexivity.
    + reflexivity.
    + exact toy_running.
    + vm_compute. reflexivity.
  - apply (Hno None). reflexivity.
Defined.

(** The empty first call and the timeout come out of [forward] as raised
    exceptions, not as returned records. *)
Lemma no_command_is_raised :
  fst (forward "" None (@new_tool Toy.Shell))
  = Raised (Exception "no command provided.") /\
  fst (forward "sleep 1000" None (@new_tool Toy.Shell))
  = Raised (Exception "timed out: bash has not returned in 120.0 seconds and must be restarted").
Proof. split; vm_compute; reflexivity. Qed.

Lemma first_empty_call_starts_session_witness :
  forward "" None (@new_tool Toy.Shell)
  = (Raised (Exception "no command provided."),
     {| _session := Some started_session |}) /\
  Running Toy.session Toy.process.
Proof.
  apply (first_empty_call_starts_session None (@new_tool Toy.Shell));
    reflexivity.
Defined.

(** The examples of the specification that the code agrees with. *)
Example echo_to_stderr :
  fst (forward "echo a 1>&2" None (@new_tool Toy.Shell))
  = Returned [("output", ""); ("error", "a")].
Proof. reflexivity. Qed.

Example restart_on_new_tool :
  forward "" (Some true) (@new_tool Toy.Shell)
  = (Returned [("system", "tool has been restarted")], Toy.tool).
Proof. reflexivity. Qed.

Example shell_exit_then_calls :
  fst (play [Call "exit 3" None; Pause; Call "echo hello" None;
             Call "" None; Call "" (Some true); Call "echo hello" None]
            (@new_tool Toy.Shell))
  = [Raised (Exception timed_out_message);
     Returned (exited_result 3);
     Raised (Exception no_command_message);
     Returned restarted_result;
     Returned [("output", "hello"); ("error", "")]].
Proof. vm_compute. reflexivity. Qed.

(** * Further properties of the session and the tool *)

(** ** More text lemmas *)

Module PyStrMore.
Import PyStr PyStrFacts.

Lemma prefix_nil (t : string) : prefix "" t = true.
Proof. destruct t; reflexivity. Qed.

Lemma prefix_app (pat x v : string) :
  prefix pat x = true -> prefix pat (x ++ v) = true.
Proof.
  revert x. induction pat as [|c pat IH]; intros x Hp.
  - apply prefix_nil.
  - destruct x as [|b x]; [discriminate|]. cbn [prefix append] in *.
    destruct (ascii_dec c b); [apply IH; exact Hp|discriminate].
Qed.

Lemma prefix_upto (pat t : string) (k : nat) :
  prefix pat (upto k t) = true -> prefix pat t = true.
Proof.
  unfold upto. revert t k. induction pat as [|c pat IH]; intros t k Hp.
  - apply prefix_nil.
  - destruct t as [|b t]; destruct k as [|k]; cbn in Hp; try discriminate.
    cbn [prefix]. destruct (ascii_dec c b); [|discriminate].
    apply (IH t k). exact Hp.
Qed.

Lemma prefix_length (pat x : string) :
  prefix pat x = true -> length pat <= length x.
Proof.
  revert x. induction pat as [|c pat IH]; intros x Hp; [cbn; lia|].
  destruct x as [|b x]; [discriminate|]. cbn [prefix] in Hp.
  destruct (ascii_dec c b); [|discriminate].
  specialize (IH x Hp). cbn [length]. lia.
Qed.

(** A pattern that starts a text only once more is appended is longer than
    the text. *)
Lemma prefix_needs_more (pat x v : string) :
  prefix pat (x ++ v) = true -> prefix pat x = false ->
  length x < length pat.
Proof.
  revert x. induction pat as [|c pat IH]; intros x Hp Hn.
  - rewrite prefix_nil in Hn. discriminate.
  - destruct x as [|b x]; [cbn; lia|]. cbn [prefix append] in *.
    destruct (ascii_dec c b); [|discriminate].
    specialize (IH x Hp Hn). cbn [length]. lia.
Qed.

Lemma find_cons (pat : string) (a : ascii) (s : string) :
  find pat (String a s)
  = if prefix pat (String a s) then Some 0
    else match find pat s with
         | Some n => Some (S n)
         | None => None
         end.
Proof. reflexivity. Qed.

Lemma find_fits (pat u : string) (i : nat) :
  find pat u = Some i -> i + length pat <= length u.
Proof.
  revert i. induction u as [|a u IH]; intros i Hf.
  - destruct pat; [|discriminate]. injection Hf as <-. cbn. lia.
  - rewrite find_cons in Hf.
    destruct (prefix pat (String a u)) eqn:Hp.
    + injection Hf as <-. apply prefix_length in Hp. lia.
    + destruct (find pat u) as [n|]; [|discriminate].
      injection Hf as <-. specialize (IH n eq_refl). cbn [length]. lia.
Qed.

(** The first occurrence stays the first when text is appended. *)
Lemma find_app_some (pat u v : string) (i : nat) :
  find pat u = Some i -> find pat (u ++ v) = Some i.
Proof.
  revert i. induction u as [|a u IH]; intros i Hf.
  - destruct pat; [|discriminate]. injection Hf as <-.
    destruct v; reflexivity.
  - rewrite find_cons in Hf.
    change (String a u ++ v) with (String a (u ++ v)). rewrite find_cons.
    change (String a (u ++ v)) with (String a u ++ v).
    destruct (prefix pat (String a u)) eqn:Hp.
    + rewrite (prefix_app _ _ v Hp). exact Hf.
    + destruct (find pat u) as [n|] eqn:Hu; [|discriminate].
      destruct (prefix pat (String a u ++ v)) eqn:Hpv.
      * pose proof (prefix_needs_more _ _ _ Hpv Hp) as Hlt.
        pose proof (find_fits _ _ _ Hu) as Hfit. cbn [length] in Hlt. lia.
      * rewrite (IH n eq_refl). exact Hf.
Qed.

Lemma upto_app (u v : string) (i : nat) :
  i <= length u -> upto i (u ++ v) = upto i u.
Proof.
  unfold upto. revert i. induction u as [|a u IH]; intros i Hi.
  - cbn in Hi. replace i with 0 by lia. destruct v; reflexivity.
  - destruct i as [|i]; [reflexivity|]. cbn [length] in Hi.
    cbn [append substring]. rewrite IH by lia. reflexivity.
Qed.

(** No occurrence lies before the first one. *)
Lemma find_upto_none (pat s : string) (i : nat) :
  pat <> "" -> find pat s = Some i -> find pat (upto i s) = None.
Proof.
  intros Hpat. revert i. induction s as [|a s IH]; intros i Hf.
  - destruct pat; [congruence|discriminate].
  - rewrite find_cons in Hf.
    destruct (prefix pat (String a s)) eqn:Hp.
    + injection Hf as <-. destruct pat; [congruence|reflexivity].
    + destruct (find pat s) as [n|]; [|discriminate].
      injection Hf as <-. specialize (IH n eq_refl).
      change (upto (S n) (String a s)) with (String a (upto n s)).
      rewrite find_cons, IH.
      destruct (prefix pat (String a (upto n s))) eqn:Hq; [|reflexivity].
      change (String a (upto n s)) with (upto (S n) (String a s)) in Hq.
      apply prefix_upto in Hq. congruence.
Qed.

Lemma find_app_none (pat u v : string) :
  find pat (u ++ v) = None -> find pat u = None.
Proof.
  destruct (find pat u) as [i|] eqn:Hu; [|reflexivity].
  rewrite (find_app_some _ _ v _ Hu). discriminate.
Qed.

Lemma drop_last_prefix (x : string) : exists w, x = drop_last x ++ w.
Proof.
  induction x as [|a x [w IH]]; [exists ""; reflexivity|].
  destruct x as [|b x].
  - exists (String a ""). reflexivity.
  - exists w. change (drop_last (String a (String b x)))
      with (String a (drop_last (String b x))).
    cbn [append]. rewrite <- IH. reflexivity.
Qed.

Lemma find_chomp_none (pat x : string) :
  find pat x = None -> find pat (chomp x) = None.
Proof.
  unfold chomp. destruct (endswith_newline x); [|trivial].
  destruct (drop_last_prefix x) as [w Hw]. intros Hf.
  rewrite Hw in Hf. apply (find_app_none _ _ _ Hf).
Qed.

Example first_occurrence_is_kept :
  find "ab" "xxabab" = Some 2 /\ upto 2 "xxabab" = "xx" /\
  find "ab" (upto 2 "xxabab") = None.
Proof. repeat split. Qed.

End PyStrMore.

(** ** More on the engine *)

Section EngineMore.

Context {B : Type} `{Backend B}.
Import PyStr PyStrFacts PyStrMore.

Lemma sentinel_not_empty : _sentinel <> "".
Proof. discriminate. Qed.

(** How the loop can end, with the poll at which it ends. *)
Lemma wait_ends (n : nat) (q : Process) :
  exists k, k <= n /\ snd (wait_for_sentinel n q) = after k q /\
    match fst (wait_for_sentinel n q) with
    | TimeoutError => k = n
    | Undecodable =>
      1 <= k /\ utf8_valid (stdout_buffer (after k q)) = false
    | Seen output =>
      1 <= k /\
      exists i, find _sentinel (stdout_buffer (after k q)) = Some i /\
                output = upto i (stdout_buffer (after k q))
    end.
Proof.
  revert q. induction n as [|n IH]; intros q.
  - exists 0. cbn. repeat split. lia.
  - cbn [wait_for_sentinel]. unfold decode.
    destruct (utf8_valid (stdout_buffer (sleep q))) eqn:Hv.
    + destruct (find _sentinel (stdout_buffer (sleep q))) as [i|] eqn:Hf.
      * exists 1. cbn [fst snd after]. repeat split; try lia.
        exists i. split; [exact Hf|reflexivity].
      * destruct (IH (sleep q)) as (k & Hk & Hq & Hend).
        exists (S k). cbn [after]. repeat split; [lia|exact Hq|].
        destruct (fst (wait_for_sentinel n (sleep q))).
        -- destruct Hend as [Hk1 Hi]. split; [lia|exact Hi].
        -- lia.
        -- destruct Hend as [Hk1 Hi]. split; [lia|exact Hi].
    + exists 1. cbn [fst snd after]. repeat split; try lia. exact Hv.
Qed.

(** A session is running or [run] does not touch it. *)
Lemma run_not_running (command : string) (s : _BashSession) (p : Process) :
  _process s = Some p -> ~ Running s p -> snd (run command s) = s.
Proof.
  intros Hp Hnot. destruct s as [st to pr]. cbn in Hp. subst pr.
  destruct st; [|reflexivity].
  unfold run, bind, get, the_process. cbn [_started _process _timed_out negb].
  destruct (returncode p) as [rc|] eqn:Hrc; [reflexivity|].
  destruct to; [reflexivity|].
  exfalso. apply Hnot. repeat split. exact Hrc.
Qed.


(** X2.  What [run] does to the shell, for a command that [encode]
    accepts: on a running session it appends exactly its one command line
    to the shell's input and sends no signal, however the call ends; on
    every other session (never started, exited or timed out) it leaves the
    session as it was. *)
Theorem run_writes_one_line_or_nothing
        (command : string) (s : _BashSession) :
  (forall p,
      Running s p ->
      exists p',
        _process (snd (run command s)) = Some p' /\
        stdin_written p' = (stdin_written p ++ [command_line command])%list /\
        signalled p' = signalled p) /\
  ((forall p, ~ Running s p) -> snd (run command s) = s).
Proof.
  split.
  - intros p Hrun.
    destruct (run_running_process command s p Hrun) as (k & _ & [Hq | Hq]);
      rewrite Hq; eexists; (split; [reflexivity|]); unfold polled;
      cbn [clear_buffers stdin_written signalled];
      rewrite after_stdin, after_signalled; split; reflexivity.
  - intros Hnot. destruct (_process s) as [p|] eqn:Hp.
    + apply (run_not_running command s p Hp (Hnot p)).
    + destruct s as [[|] to pr]; cbn in Hp; subst pr; reflexivity.
Qed.

(** X3.  The output field of a returned [{output, error}] record never
    contains the sentinel: when the shell's own output holds one, the
    output is cut at its first occurrence. *)
Theorem output_never_holds_sentinel
        (command : string) (s s' : _BashSession) (o e : string) :
  run command s = (Returned [("output", o); ("error", e)], s') ->
  find _sentinel o = None.
Proof.
  unfold run, bind, get, the_process.
  destruct (negb (_started s)); [discriminate|].
  destruct (_process s) as [p|]; [|discriminate].
  destruct (returncode p); [discriminate|].
  destruct (_timed_out s); [discriminate|].
  destruct (wait_ends polls (stdin_write (command_line command) p))
    as (k & _ & _ & Hend).
  destruct (wait_for_sentinel polls (stdin_write (command_line command) p))
    as [[output| |] q]; try discriminate.
  cbn [fst] in Hend. destruct Hend as (_ & i & Hi & ->).
  unfold set_process. destruct (decode (stderr_buffer q)); [|discriminate].
  intros Heq. injection Heq as <- _ _.
  apply find_chomp_none, find_upto_none; [exact sentinel_not_empty|exact Hi].
Qed.

(** X4.  [run] does not clear the buffers before it writes: bytes that
    reached them before the call are returned in front of what the shell
    produces during it. *)
Theorem earlier_bytes_are_returned
        (command : string) (s : _BashSession) (p : Process)
        (d : nat) (out rest : string) :
  Running s p ->
  d < polls ->
  misses_through command p d = true ->
  utf8_valid (stdout_buffer (polled command p (S d))) = true ->
  utf8_valid (stderr_buffer (polled command p (S d))) = true ->
  fst (produced (S d) (feed (command_line command) (os p)))
  = out ++ _sentinel ++ rest ->
  find _sentinel (stdout_buffer p ++ out) = None ->
  fst (run command s)
  = Returned
      [("output", chomp (stdout_buffer p ++ out));
       ("error",
        chomp (stderr_buffer p
               ++ snd (produced (S d) (feed (command_line command) (os p)))))].
Proof.
  intros Hrun Hd Hmiss Hvo Hve Hprod Hfree.
  destruct (after_buffers (S d) (stdin_write (command_line command) p))
    as [Ho He].
  cbn [stdin_write stdout_buffer stderr_buffer os] in Ho, He.
  fold (polled command p (S d)) in Ho, He.
  assert (Hbuf : stdout_buffer (polled command p (S d))
                 = (stdout_buffer p ++ out) ++ _sentinel ++ rest).
  { rewrite Ho, Hprod. symmetry. apply app_assoc. }
  rewrite (run_sees _ _ _ _ _ _ Hrun Hd Hmiss Hvo Hbuf Hfree Hve).
  cbn [fst]. rewrite He. reflexivity.
Qed.

(** X5.  A sentinel that is already in the buffer when [run] is called
    ends the call at its first poll, provided both buffers decode as UTF-8
    at that poll: the text before that sentinel is returned, whatever the
    command, and the buffers are cleared, with anything the new command
    has printed by then. *)
Theorem stale_sentinel_ends_next_call
        (command : string) (s : _BashSession) (p : Process) (i : nat) :
  Running s p ->
  0 < polls ->
  find _sentinel (stdout_buffer p) = Some i ->
  utf8_valid (stdout_buffer (polled command p 1)) = true ->
  utf8_valid (stderr_buffer (polled command p 1)) = true ->
  run command s
  = (Returned [("output", chomp (upto i (stdout_buffer p)));
               ("error", chomp (stderr_buffer (polled command p 1)))],
     {| _started := true; _timed_out := false;
        _process := Some (clear_buffers (polled command p 1)) |}).
Proof.
  intros Hrun Hpolls Hi Hvo Hve.
  rewrite (run_running _ _ _ Hrun).
  destruct polls as [|n]; [lia|]. cbn [wait_for_sentinel].
  change (sleep (stdin_write (command_line command) p))
    with (polled command p 1).
  rewrite (decode_valid _ Hvo).
  destruct (after_buffers 1 (stdin_write (command_line command) p))
    as [Ho _].
  cbn [stdin_write stdout_buffer os] in Ho.
  fold (polled command p 1) in Ho. rewrite Ho.
  rewrite (find_app_some _ _ _ _ Hi).
  rewrite upto_app by (pose proof (find_fits _ _ _ Hi); lia).
  rewrite (decode_valid _ Hve). reflexivity.
Qed.

(** X6.  A call that raises [UnicodeDecodeError] has written its command
    line, does not record a timeout and does not clear the buffers: the
    session stays open with the bytes of the poll that failed. *)
Theorem decode_error_keeps_session_open
        (command : string) (s : _BashSession) (p : Process) :
  Running s p ->
  fst (run command s) = Raised UnicodeDecodeError ->
  exists k,
    1 <= k <= polls /\
    snd (run command s)
    = {| _started := true; _timed_out := false;
         _process := Some (polled command p k) |} /\
    (utf8_valid (stdout_buffer (polled command p k)) = false \/
     utf8_valid (stderr_buffer (polled command p k)) = false).
Proof.
  intros Hrun. rewrite (run_running _ _ _ Hrun).
  destruct (wait_ends polls (stdin_write (command_line command) p))
    as (k & Hk & Hq & Hend).
  fold (polled command p k) in Hq, Hend.
  destruct (wait_for_sentinel polls (stdin_write (command_line command) p))
    as [[output| |] q]; cbn [fst snd] in *; subst q.
  - destruct Hend as (Hk1 & _). unfold decode.
    destruct (utf8_valid (stderr_buffer (polled command p k))) eqn:Hv;
      cbn [fst snd]; [discriminate|].
    intros _. exists k. repeat split; try assumption. right. exact Hv.
  - discriminate.
  - destruct Hend as (Hk1 & Hv). intros _. exists k.
    repeat split; try assumption. left. exact Hv.
Qed.

(** X10.  [run] does not look at the return code while it polls: when a
    command outlasts the timeout (no sentinel, the stdout buffer decoding
    at every poll) and the shell has exited by then, the call still raises
    the timeout exception; the exit is reported by the next call, which
    returns the must-restart record and not the timeout exception. *)
Theorem exit_during_command_reported_late
        (command next : string) (s : _BashSession) (p : Process) (rc : Z) :
  Running s p ->
  outlasts_timeout command p = true ->
  returncode (polled command p polls) = Some rc ->
  exists s',
    run command s = (Raised (Exception timed_out_message), s') /\
    run next s' = (Returned (exited_result rc), s').
Proof.
  intros Hrun Hout Hrc.
  exists {| _started := true; _timed_out := true;
            _process := Some (polled command p polls) |}.
  split; [apply run_times_out; assumption|].
  apply (run_exited next _ (polled command p polls) rc).
  repeat split. exact Hrc.
Qed.

End EngineMore.

(** ** More on the facade *)

Section FacadeMore.

Context {B : Type} `{Backend B}.





(** X9.  Creating the session on the first call is not observable: a call
    on a tool without session gives the result and leaves the tool that
    the same call gives and leaves on a tool holding a freshly started
    session. *)
Theorem first_call_as_on_started_session
        (command : string) (restart : option bool) :
  forward command restart new_tool
  = forward command restart {| _session := Some started_session |}.
Proof.
  destruct (truthy restart) eqn:Hr.
  - destruct restart as [[|]|]; try discriminate.
    rewrite (forward_restart command new_tool I).
    rewrite (forward_restart command {| _session := Some started_session |}).
    + reflexivity.
    + exists create_subprocess_shell. split; reflexivity.
  - rewrite (forward_first_call _ _ Hr).
    rewrite (forward_without_restart _ _ _ Hr). reflexivity.
Qed.

Lemma forward_unstarted (command : string) (restart : option bool) :
  exists r,
    (r = Raised (Exception not_started_message) \/
     r = Raised (Exception no_command_message)) /\
    forward command restart {| _session := Some new_session |}
    = (r, {| _session := Some new_session |}).
Proof.
  destruct restart as [[|]|]; destruct command as [|c command];
    eexists; (split; [|reflexivity]); (left; reflexivity) || (right; reflexivity).
Qed.

(** X11.  A tool that holds a session which was stored but never started,
    as a fault in [start] would leave it, is stuck: every call raises
    [Session has not started.], the restart too, or [no command provided.]
    for an empty command without restart, and the tool stays as it is. *)
Theorem unstarted_session_blocks_every_call
        (command : string) (sched : list Step) :
  forward command (Some true) {| _session := Some new_session |}
  = (Raised (Exception "Session has not started."),
     {| _session := Some new_session |}) /\
  exists rs,
    play sched {| _session := Some new_session |}
    = (rs, {| _session := Some new_session |}) /\
    List.length rs = calls sched /\
    Forall (fun r => r = Raised (Exception "Session has not started.") \/
                     r = Raised (Exception "no command provided."))
           rs.
Proof.
  split; [reflexivity|].
  induction sched as [|st rest (rs & Hplay & Hlen & Hall)].
  - exists []. repeat split. constructor.
  - destruct st as [c restart|].
    + destruct (forward_unstarted c restart) as (r & Hr & Hf).
      exists (r :: rs). cbn [play calls]. rewrite Hf, Hplay.
      repeat split; [cbn; congruence|constructor; assumption].
    + exists rs. cbn [play calls].
      change (idle {| _session := Some new_session |})
        with {| _session := Some (@new_session B) |}.
      rewrite Hplay. repeat split; assumption.
Qed.

End FacadeMore.

(** ** More runs on the scripted shell *)

Lemma toy_lagging_running : Running Toy.lagging_session Toy.lagging_process.
Proof. repeat split. Qed.

Lemma toy_desynced_running :
  Running Toy.desynced_session Toy.desynced_process.
Proof. repeat split. Qed.

Lemma toy_dead_not_running (p : @Process Toy.Shell) :
  ~ Running Toy.dead_session p.
Proof.
  intros (_ & Hp & Hrc & _). injection Hp as <-. discriminate Hrc.
Qed.

Lemma toy_new_not_running (p : @Process Toy.Shell) :
  ~ Running new_session p.
Proof. intros (Hs & _). discriminate Hs. Qed.

Lemma run_writes_one_line_or_nothing_witness :
  (exists p',
      _process (snd (run "echo hello" Toy.session)) = Some p' /\
      stdin_written p' = [command_line "echo hello"] /\
      signalled p' = []) /\
  snd (run "echo hello" Toy.dead_session) = Toy.dead_session /\
  snd (run "echo hello" (@new_session Toy.Shell)) = new_session.
Proof.
  split; [|split].
  - apply (proj1 (run_writes_one_line_or_nothing "echo hello" Toy.session)
                 Toy.process).
    exact toy_running.
  - apply (proj2 (run_writes_one_line_or_nothing
                    "echo hello" Toy.dead_session)).
    exact toy_dead_not_running.
  - apply (proj2 (run_writes_one_line_or_nothing
                    "echo hello" (@new_session Toy.Shell))).
    exact toy_new_not_running.
Defined.

(** The buffer holds [old], a sentinel, and then the answer to the new
    command with its own sentinel; the output is cut at the first. *)
Lemma output_never_holds_sentinel_witness :
  fst (run "echo hello" Toy.desynced_session)
  = Returned [("output", "old"); ("error", "")] /\
  PyStr.find _sentinel "old" = None.
Proof.
  split; [reflexivity|].
  apply (output_never_holds_sentinel
           "echo hello" Toy.desynced_session
           (snd (run "echo hello" Toy.desynced_session)) "old" "").
  vm_compute. reflexivity.
Defined.

Lemma earlier_bytes_are_returned_witness :
  fst (run "echo hello" Toy.lagging_session)
  = Returned [("output", "late" ++ nl ++ "hello"); ("error", "")].
Proof.
  exact (earlier_bytes_are_returned
           "echo hello" Toy.lagging_session Toy.lagging_process 0
           ("hello" ++ nl) nl toy_lagging_running
           toy_patience eq_refl eq_refl eq_refl eq_refl eq_refl).
Defined.

Lemma stale_sentinel_ends_next_call_witness :
  fst (run "echo hello" Toy.desynced_session)
  = Returned [("output", "old"); ("error", "")] /\
  fst (run "sleep 1000" Toy.desynced_session)
  = Returned [("output", "old"); ("error", "")].
Proof.
  split.
  - rewrite (stale_sentinel_ends_next_call
               "echo hello" Toy.desynced_session Toy.desynced_process 4
               toy_desynced_running toy_patience eq_refl eq_refl eq_refl).
    reflexivity.
  - rewrite (stale_sentinel_ends_next_call
               "sleep 1000" Toy.desynced_session Toy.desynced_process 4
               toy_desynced_running toy_patience eq_refl eq_refl eq_refl).
    reflexivity.
Defined.

Lemma decode_error_keeps_session_open_witness :
  exists k,
    1 <= k <= @polls _ Toy.shell /\
    snd (run "printf '\377'" Toy.session)
    = {| _started := true; _timed_out := false;
         _process := Some (polled "printf '\377'" Toy.process k) |} /\
    (PyStr.utf8_valid
       (stdout_buffer (polled "printf '\377'" Toy.process k)) = false \/
     PyStr.utf8_valid
       (stderr_buffer (polled "printf '\377'" Toy.process k)) = false).
Proof.
  apply (decode_error_keeps_session_open
           "printf '\377'" Toy.session Toy.process).
  - exact toy_running.
  - reflexivity.
Defined.

Lemma exit_during_command_reported_late_witness :
  exists s',
    run "exit 3" Toy.session = (Raised (Exception timed_out_message), s') /\
    run "echo hello" s' = (Returned (exited_result 3), s').
Proof.
  apply (exit_during_command_reported_late
           "exit 3" "echo hello" Toy.session Toy.process 3).
  - exact toy_running.
  - vm_compute. reflexivity.
  - vm_compute. reflexivity.
Defined.
